(** * tableqa.agent: the orchestrator of tableQA

    A shallow embedding of [tableqa/agent.py] (class [Agent] with its two
    entry points [get_query] and [query_db]) and the properties of the
    orchestrator that the specification states.

    The agent owns no algorithm: it wires a question through the modules
    [nlp], [database], [chart] and [logging_utils].  Those modules are
    taken as an interface ([Lib] below) and every theorem is proved for an
    arbitrary implementation of that interface.  Python's effects are
    made explicit:

    - a call either returns a value or raises ([Res]);
    - the process state ([World]) is threaded through every statement and
      survives a raised exception, as in Python;
    - every call that leaves the agent for [nlp], [database] or [chart]
      is recorded, in program order, in the [calls] component of the
      world, so that "is invoked", "exactly once" and "with which
      arguments" can be stated. *)

From Stdlib Require Import String List Bool Arith ZArith Lia.
Import ListNotations.
Local Open Scope string_scope.
Local Open Scope list_scope.

(** ** Outcomes of a Python call *)

Inductive Res (X A : Type) : Type :=
| Ret (a : A)
| Raise (e : X).
Arguments Ret {X A} a.
Arguments Raise {X A} e.

Definition returned {X A} (r : Res X A) : bool :=
  match r with Ret _ => true | Raise _ => false end.

(** ** The [logging] levels used by the agent *)

Inductive Level := NOTSET | DEBUG | INFO | WARNING | ERROR | CRITICAL.

Definition level_value (l : Level) : Z :=
  match l with
  | NOTSET => 0 | DEBUG => 10 | INFO => 20
  | WARNING => 30 | ERROR => 40 | CRITICAL => 50
  end%Z.

(** ** [self.data_dir]: a folder, or a table already in memory

    [isinstance(self.data_dir, pd.DataFrame)] is the match on this type. *)

Inductive DataSource (DF : Type) : Type :=
| Path (p : string)
| Frame (df : DF).
Arguments Path {DF} p.
Arguments Frame {DF} df.

(** ** The modules the agent imports

    [ext] is whatever state [nlp], [database] and [chart] own (files,
    connections, figures); [logcfg] is the logger registry of [logging]
    apart from the root logger's level, which the agent writes itself.
    [DataFrame] is the type of what [get_query] binds to [df].
    Calls into [nlp], [database] and [chart] may raise; the logging calls
    ([get_logger], [Logger.info]) complete, [logging] reporting its own
    handler errors without raising, and they act on the logging state
    only. *)

Class Lib : Type := {
  ext : Type;
  logcfg : Type;
  exn : Type;
  nlp_obj : Type;
  DataFrame : Type;
  db_obj : Type;
  logger_obj : Type;
  row : Type;

  (* nlp.py *)
  Nlp : DataSource DataFrame -> option string -> bool -> string -> string ->
        ext -> Res exn nlp_obj * ext;
  csv_select : nlp_obj -> string -> ext -> Res exn (option DataFrame) * ext;
  get_sql_query : nlp_obj -> DataFrame -> string -> bool ->
                  ext -> Res exn string * ext;

  (* database.py *)
  Database : DataSource DataFrame -> option string -> bool -> string -> string ->
             ext -> Res exn db_obj * ext;
  fetch_data : db_obj -> string -> option string -> string -> string ->
               string -> string -> string -> option string -> bool ->
               ext -> Res exn (list row) * ext;
  fetch_data_aws : db_obj -> string -> option string -> string -> string ->
                   string -> string -> string -> option string -> bool ->
                   ext -> Res exn (list row) * ext;

  (* chart.py *)
  Chart : string -> option string -> list row -> Z * Z ->
          ext -> Res exn unit * ext;

  (* logging_utils.py and logging.Logger.info; the [Level] argument is
     the root logger's level at the time of the call (read only) *)
  get_logger : string -> logcfg -> logger_obj * logcfg;
  logger_info : logger_obj -> Level -> string -> string -> logcfg -> logcfg
}.

Section Orchestrator.

Context {lib : Lib}.

(** ** Calls that leave the agent, with their arguments *)

Inductive Call : Type :=
| CNlp (data_dir : DataSource DataFrame) (schema_dir : option string)
       (aws_s3 : bool) (access_key_id secret_access_key : string)
| CCsvSelect (nlp : nlp_obj) (question : string)
| CGetSqlQuery (nlp : nlp_obj) (df : DataFrame) (question : string)
               (distinct : bool)
| CDatabase (data_dir : DataSource DataFrame) (schema_dir : option string)
            (aws_s3 : bool) (access_key_id secret_access_key : string)
| CFetchData (database : db_obj) (question : string) (query : option string)
             (db_type username password dbname host : string)
             (port : option string) (drop_db : bool)
| CFetchDataAws (database : db_obj) (question : string) (query : option string)
                (db_type username password dbname host : string)
                (port : option string) (drop_db : bool)
| CChart (chart : string) (query : option string) (answer : list row)
         (size : Z * Z).

(** ** The process state *)

Record World : Type := mkWorld {
  root_level : Level;          (* logging.getLogger().level *)
  log_state : logcfg;
  stdout : list string;        (* lines written by print *)
  calls : list Call;           (* oldest first *)
  ext_state : ext
}.

(** ** Statements: state passing with exceptions *)

Definition M (A : Type) : Type := World -> Res exn A * World.

Definition ret {A} (a : A) : M A := fun w => (Ret a, w).

Definition bind {A B} (m : M A) (k : A -> M B) : M B :=
  fun w =>
    match m w with
    | (Ret a, w') => k a w'
    | (Raise e, w') => (Raise e, w')
    end.

Notation "x <- m ;; k" := (bind m (fun x => k))
  (at level 61, m at next level, right associativity).
Notation "m ;; k" := (bind m (fun _ => k))
  (at level 61, right associativity).

(** A call into [nlp], [database] or [chart]: recorded, then run on the
    state those modules own. *)
Definition extern {A} (c : Call) (f : ext -> Res exn A * ext) : M A :=
  fun w =>
    let (r, e') := f (ext_state w) in
    (r, mkWorld (root_level w) (log_state w) (stdout w) (calls w ++ [c]) e').

(** [print(line)] *)
Definition print (line : string) : M unit :=
  fun w =>
    (Ret tt, mkWorld (root_level w) (log_state w) (stdout w ++ [line])
                     (calls w) (ext_state w)).

(** [logging.getLogger()]: a handle on the root logger. *)
Inductive root_ref : Type := RootLogger.

Definition logging_getLogger : M root_ref := ret RootLogger.

(** [root_logger.setLevel(l)] *)
Definition setLevel (lg : root_ref) (l : Level) : M unit :=
  fun w =>
    (Ret tt, mkWorld l (log_state w) (stdout w) (calls w) (ext_state w)).

(** [get_logger(name)] *)
Definition call_get_logger (name : string) : M logger_obj :=
  fun w =>
    let (lg, c') := get_logger name (log_state w) in
    (Ret lg, mkWorld (root_level w) c' (stdout w) (calls w) (ext_state w)).

(** [logger.info(fmt, arg)] *)
Definition call_logger_info (lg : logger_obj) (fmt arg : string) : M unit :=
  fun w =>
    (Ret tt, mkWorld (root_level w)
                     (logger_info lg (root_level w) fmt arg (log_state w))
                     (stdout w) (calls w) (ext_state w)).

(** ** class Agent *)

Record Agent : Type := mkAgent {
  data_dir : DataSource DataFrame;
  schema_dir : option string;
  db_type : string;
  username : string;
  password : string;
  database : string;
  host : string;
  port : option string;
  drop_db : bool;
  aws_db : bool;
  aws_s3 : bool;
  access_key_id : string;
  secret_access_key : string
}.

(** [Agent(data_dir)] with every keyword argument at its default. *)
Definition Agent_default (d : DataSource DataFrame) : Agent :=
  mkAgent d None "sqlite" "" "" "db" "localhost" None true false false "" "".

(** [__name__] of the module *)
Definition module_name : string := "tableqa.agent".

(** [Agent.get_query(self, question, verbose, distinct)].  Falling off the
    end of the function after [print] is Python's [return None]. *)
Definition get_query (self : Agent) (question : string)
           (verbose distinct : bool) : M (option string) :=
  nlp <- extern (CNlp (data_dir self) (schema_dir self) (aws_s3 self)
                      (access_key_id self) (secret_access_key self))
                (Nlp (data_dir self) (schema_dir self) (aws_s3 self)
                     (access_key_id self) (secret_access_key self)) ;;
  root_logger <- logging_getLogger ;;
  df <- match data_dir self with
        | Frame d => ret (Some d)
        | Path _ => extern (CCsvSelect nlp question) (csv_select nlp question)
        end ;;
  match df with
  | None =>
      print "Sorry,didn't catch that" ;;
      ret None
  | Some df =>
      if verbose then
        setLevel root_logger INFO ;;
        logger <- call_get_logger module_name ;;
        sql_query <- extern (CGetSqlQuery nlp df question distinct)
                            (get_sql_query nlp df question distinct) ;;
        call_logger_info logger "SQL query = %s" sql_query ;;
        ret (Some sql_query)
      else
        setLevel root_logger WARNING ;;
        sql_query <- extern (CGetSqlQuery nlp df question distinct)
                            (get_sql_query nlp df question distinct) ;;
        ret (Some sql_query)
  end.

(** A bound method obtained with [getattr(database, name)]. *)
Inductive fetch_name := name_fetch_data | name_fetch_data_aws.

Definition getattr (db : db_obj) (name : fetch_name)
           (question : string) (query : option string)
           (db_type username password dbname host : string)
           (port : option string) (drop_db : bool) : M (list row) :=
  match name with
  | name_fetch_data_aws =>
      extern (CFetchDataAws db question query db_type username password
                            dbname host port drop_db)
             (fetch_data_aws db question query db_type username password
                             dbname host port drop_db)
  | name_fetch_data =>
      extern (CFetchData db question query db_type username password
                         dbname host port drop_db)
             (fetch_data db question query db_type username password
                         dbname host port drop_db)
  end.

(** [Agent.query_db(self, question, verbose, chart, size, distinct)]. *)
Definition query_db (self : Agent) (question : string) (verbose : bool)
           (chart : option string) (size : Z * Z) (distinct : bool)
  : M (list row) :=
  query <- get_query self question verbose distinct ;;
  db <- extern (CDatabase (data_dir self) (schema_dir self) (aws_s3 self)
                          (access_key_id self) (secret_access_key self))
               (Database (data_dir self) (schema_dir self) (aws_s3 self)
                         (access_key_id self) (secret_access_key self)) ;;
  let fetch := if aws_db self then getattr db name_fetch_data_aws
               else getattr db name_fetch_data in
  answer <- fetch question query (db_type self) (username self)
                  (password self) (database self) (host self) (port self)
                  (drop_db self) ;;
  match chart with
  | Some kind =>
      extern (CChart kind query answer size) (Chart kind query answer size) ;;
      ret answer
  | None => ret answer
  end.

(** The keyword defaults of the two methods. *)
Definition default_size : Z * Z := (10, 10)%Z.

Definition get_query_default (self : Agent) (question : string) :=
  get_query self question false false.

Definition query_db_default (self : Agent) (question : string) :=
  query_db self question false None default_size false.

(** ** Vocabulary for the statements *)

(** The calls made while [m] runs from [w]. *)
Definition calls_during {A} (m : M A) (w : World) : list Call :=
  skipn (length (calls w)) (calls (snd (m w))).

(** What lines 132-135 leave in [df]: the in-memory table, or the table
    selector's answer. *)
Definition selection (self : Agent) (nlp : nlp_obj) (question : string)
  : ext -> Res exn (option DataFrame) * ext :=
  match data_dir self with
  | Frame d => fun e => (Ret (Some d), e)
  | Path _ => csv_select nlp question
  end.

(** The execution backend as [query_db] reaches it: the function that
    runs, and the call that is recorded. *)
Definition backend_run (self : Agent) (db : db_obj) (question : string)
           (query : option string) : ext -> Res exn (list row) * ext :=
  (if aws_db self then fetch_data_aws else fetch_data)
    db question query (db_type self) (username self) (password self)
    (database self) (host self) (port self) (drop_db self).

Definition backend_call (self : Agent) (db : db_obj) (question : string)
           (query : option string) : Call :=
  (if aws_db self then CFetchDataAws else CFetchData)
    db question query (db_type self) (username self) (password self)
    (database self) (host self) (port self) (drop_db self).

Definition is_backend (c : Call) : bool :=
  match c with
  | CFetchData _ _ _ _ _ _ _ _ _ _ => true
  | CFetchDataAws _ _ _ _ _ _ _ _ _ _ => true
  | _ => false
  end.

Definition is_aws_backend (c : Call) : bool :=
  match c with
  | CFetchDataAws _ _ _ _ _ _ _ _ _ _ => true
  | _ => false
  end.

Definition is_selector (c : Call) : bool :=
  match c with CCsvSelect _ _ => true | _ => false end.

Definition is_Nlp (c : Call) : bool :=
  match c with CNlp _ _ _ _ _ => true | _ => false end.

Definition is_Database (c : Call) : bool :=
  match c with CDatabase _ _ _ _ _ => true | _ => false end.

(** Number of schema-bearing objects built from the data source among
    [cs]: every [Nlp(...)] and every [Database(...)]. *)
Definition constructions (cs : list Call) : nat :=
  length (filter (fun c => is_Nlp c || is_Database c) cs).

(** A synthesizer call carries this question and this [distinct]. *)
Definition synthesizer_gets (question : string) (distinct : bool)
           (c : Call) : Prop :=
  match c with
  | CGetSqlQuery _ _ q d => q = question /\ d = distinct
  | _ => True
  end.

(** The calls one run of [get_query] makes, read off the outcomes of
    the interface calls from external state [e]. *)
Definition get_query_calls (self : Agent) (question : string)
           (distinct : bool) (e : ext) : list Call :=
  CNlp (data_dir self) (schema_dir self) (aws_s3 self) (access_key_id self)
       (secret_access_key self)
  :: match Nlp (data_dir self) (schema_dir self) (aws_s3 self)
               (access_key_id self) (secret_access_key self) e with
     | (Raise _, _) => []
     | (Ret nlp, e1) =>
         match data_dir self with
         | Path _ => [CCsvSelect nlp question]
         | Frame _ => []
         end
         ++ match selection self nlp question e1 with
            | (Ret (Some df), _) => [CGetSqlQuery nlp df question distinct]
            | _ => []
            end
     end.

(** The calls [query_db] makes once [get_query] has ended with [r]. *)
Definition query_db_tail (self : Agent) (question : string)
           (chart : option string) (size : Z * Z)
           (r : Res exn (option string) * World) : list Call :=
  match r with
  | (Raise _, _) => []
  | (Ret query, w1) =>
      CDatabase (data_dir self) (schema_dir self) (aws_s3 self)
                (access_key_id self) (secret_access_key self)
      :: match Database (data_dir self) (schema_dir self) (aws_s3 self)
                        (access_key_id self) (secret_access_key self)
                        (ext_state w1) with
         | (Raise _, _) => []
         | (Ret db, e2) =>
             backend_call self db question query
             :: match backend_run self db question query e2, chart with
                | (Ret answer, _), Some kind =>
                    [CChart kind query answer size]
                | _, _ => []
                end
         end
  end.

Definition is_synthesizer (c : Call) : bool :=
  match c with CGetSqlQuery _ _ _ _ => true | _ => false end.

(** The query a backend call was given to execute. *)
Definition backend_query (c : Call) : option string :=
  match c with
  | CFetchData _ _ query _ _ _ _ _ _ _ => query
  | CFetchDataAws _ _ query _ _ _ _ _ _ _ => query
  | _ => None
  end.

(** Modelled from the spec: [nlp.get_sql_query] is outside the agent's
    module.  Of the query it renders the specification says that the
    distinctness is "set from the caller-supplied flag, not inferred from
    text" and that the flag "strictly toggles presence of the DISTINCT
    modifier in the rendered query".  With [reads] telling whether a
    rendered query is distinct, this is that contract: whatever the
    table, the question and the state, a query the synthesizer returns
    for the flag [d] is distinct exactly when [d] is set. *)
Definition honours_distinct (reads : string -> bool) : Prop :=
  forall nlp df question d e s,
    fst (get_sql_query nlp df question d e) = Ret s -> reads s = d.

Definition is_Chart (c : Call) : bool :=
  match c with CChart _ _ _ _ => true | _ => false end.

(** The calls that touch the database or draw: none of them belongs to
    query generation. *)
Definition executes (c : Call) : bool :=
  is_Database c || is_backend c || is_Chart c.

End Orchestrator.

Arguments Call : clear implicits.
Arguments World : clear implicits.
Arguments Agent : clear implicits.

(** ** A small implementation of the interface

    Two tables, a selector that takes the first table whose name occurs
    in the question, a synthesizer that selects every column, a backend
    that counts the statements it ran and rejects a missing query, and a
    chart module that knows two kinds of chart. *)

Module Demo.

Definition tables : list string := ["orders"; "employees"].

Definition mentions (question table : string) : bool :=
  match index 0 table question with Some _ => true | None => false end.

Definition select (question : string) : option string :=
  find (mentions question) tables.

Definition render (table : string) (distinct : bool) : string :=
  ((if distinct then "SELECT DISTINCT * FROM " else "SELECT * FROM ")
     ++ table)%string.

Definition run (origin : string) (query : option string) (n : nat)
  : Res string (list (list string)) * nat :=
  match query with
  | Some q => (Ret [[origin; q]], S n)
  | None => (Raise "OperationalError", S n)
  end.

Definition draw (kind : string) (n : nat) : Res string unit * nat :=
  if (kind =? "bar") || (kind =? "line") then (Ret tt, n)
  else (Raise "AttributeError", n).

Definition emit (name : string) (root : Level) (fmt arg : string)
           (lines : list string) : list string :=
  if (level_value root <=? level_value INFO)%Z
  then lines ++ [(name ++ ": " ++ fmt ++ " " ++ arg)%string]
  else lines.

Definition lib : Lib := {|
  ext := nat;
  logcfg := list string;
  exn := string;
  nlp_obj := unit;
  DataFrame := string;
  db_obj := unit;
  logger_obj := string;
  row := list string;
  Nlp := fun _ _ _ _ _ n => (Ret tt, n);
  csv_select := fun _ question n => (Ret (select question), n);
  get_sql_query := fun _ df _ distinct n => (Ret (render df distinct), n);
  Database := fun _ _ _ _ _ n => (Ret tt, n);
  fetch_data := fun _ _ query _ _ _ _ _ _ _ => run "local" query;
  fetch_data_aws := fun _ _ query _ _ _ _ _ _ _ => run "aws" query;
  Chart := fun kind _ _ _ => draw kind;
  get_logger := fun name lines => (name, lines);
  logger_info := emit
|}.

(** An agent over a folder, one over a table in memory, one on AWS. *)
Definition agent : Agent lib := Agent_default (lib := lib) (Path "/data").
Definition frame_agent : Agent lib := Agent_default (lib := lib) (Frame "orders").
Definition aws_agent : Agent lib :=
  mkAgent (lib := lib) (Path "/data") None "mysql" "u" "p" "db" "h" None
          true true false "" "".

(** A fresh process: root logger at Python's default [WARNING]. *)
Definition start : World lib := mkWorld (lib := lib) WARNING [] [] [] 0.

End Demo.

(** ** An implementation whose calls can fail

    As [Demo], but the constructor of [Nlp] rejects an empty schema
    folder, the selector an empty question, the synthesizer a question
    asking for an average and a total at once, and [Database] the S3
    mode without an access key. *)

Module Strict.

Definition construct (schema_dir : option string) (n : nat)
  : Res string unit * nat :=
  match schema_dir with
  | Some dir => if dir =? "" then (Raise "SchemaError", n) else (Ret tt, n)
  | None => (Ret tt, n)
  end.

Definition select (question : string) (n : nat)
  : Res string (option string) * nat :=
  if question =? "" then (Raise "ValueError", n)
  else (Ret (Demo.select question), n).

Definition synthesize (df question : string) (distinct : bool) (n : nat)
  : Res string string * nat :=
  if Demo.mentions question "average" && Demo.mentions question "total"
  then (Raise "AmbiguousQueryError", n)
  else (Ret (Demo.render df distinct), n).

Definition connect (aws_s3 : bool) (access_key_id : string) (n : nat)
  : Res string unit * nat :=
  if aws_s3 && (access_key_id =? "") then (Raise "CredentialsError", n)
  else (Ret tt, n).

Definition lib : Lib := {|
  ext := nat;
  logcfg := list string;
  exn := string;
  nlp_obj := unit;
  DataFrame := string;
  db_obj := unit;
  logger_obj := string;
  row := list string;
  Nlp := fun _ schema_dir _ _ _ => construct schema_dir;
  csv_select := fun _ question => select question;
  get_sql_query := fun _ df question distinct => synthesize df question distinct;
  Database := fun _ _ aws_s3 key _ => connect aws_s3 key;
  fetch_data := fun _ _ query _ _ _ _ _ _ _ => Demo.run "local" query;
  fetch_data_aws := fun _ _ query _ _ _ _ _ _ _ => Demo.run "aws" query;
  Chart := fun kind _ _ _ => Demo.draw kind;
  get_logger := fun name lines => (name, lines);
  logger_info := Demo.emit
|}.

Definition agent : Agent lib := Agent_default (lib := lib) (Path "/data").

(** An agent pointed at an empty schema folder name. *)
Definition unschemed_agent : Agent lib :=
  mkAgent (lib := lib) (Path "/data") (Some "") "sqlite" "" "" "db"
          "localhost" None true false false "" "".

(** An agent in S3 mode that was given no access key. *)
Definition keyless_agent : Agent lib :=
  mkAgent (lib := lib) (Path "/data") None "sqlite" "" "" "db"
          "localhost" None true false true "" "".

Definition start : World lib := mkWorld (lib := lib) WARNING [] [] [] 0.

End Strict.

(** * Properties of the orchestrator *)

Section Properties.

Context {lib : Lib}.

Implicit Types (self : Agent lib) (w : World lib) (question : string).

(** ** Running the statements *)

Lemma calls_during_app {A} (m : M A) w cs :
  calls (snd (m w)) = calls w ++ cs -> calls_during m w = cs.
Proof.
  intros H. unfold calls_during. rewrite H.
  rewrite skipn_app, skipn_all, Nat.sub_diag. reflexivity.
Qed.

(** Unfold the statements down to the interface calls. *)
Ltac exec :=
  unfold query_db, get_query, getattr, bind, extern, print,
    logging_getLogger, setLevel, call_get_logger, call_logger_info, ret in *;
  simpl in *.

(** Split on the outcome of the next interface call, in program order. *)
Ltac outcome :=
  match goal with
  | |- context [Nlp ?a1 ?a2 ?a3 ?a4 ?a5 ?s] =>
      destruct (Nlp a1 a2 a3 a4 a5 s) as [[?nlp | ?x] ?e] eqn:?
  | |- context [match data_dir ?a with _ => _ end] =>
      destruct (data_dir a) as [?p | ?d] eqn:?
  | |- context [csv_select ?a1 ?a2 ?s] =>
      destruct (csv_select a1 a2 s) as [[[?df | ] | ?x] ?e] eqn:?
  | |- context [get_logger ?a1 ?s] =>
      destruct (get_logger a1 s) as [?lg ?c] eqn:?
  | |- context [get_sql_query ?a1 ?a2 ?a3 ?a4 ?s] =>
      destruct (get_sql_query a1 a2 a3 a4 s) as [[?sql | ?x] ?e] eqn:?
  | |- context [Database ?a1 ?a2 ?a3 ?a4 ?a5 ?s] =>
      destruct (Database a1 a2 a3 a4 a5 s) as [[?db | ?x] ?e] eqn:?
  | |- context [if aws_db ?a then _ else _] =>
      destruct (aws_db a) eqn:?
  | |- context [fetch_data_aws ?a1 ?a2 ?a3 ?a4 ?a5 ?a6 ?a7 ?a8 ?a9 ?a10 ?s] =>
      destruct (fetch_data_aws a1 a2 a3 a4 a5 a6 a7 a8 a9 a10 s)
        as [[?answer | ?x] ?e] eqn:?
  | |- context [fetch_data ?a1 ?a2 ?a3 ?a4 ?a5 ?a6 ?a7 ?a8 ?a9 ?a10 ?s] =>
      destruct (fetch_data a1 a2 a3 a4 a5 a6 a7 a8 a9 a10 s)
        as [[?answer | ?x] ?e] eqn:?
  | |- context [Chart ?a1 ?a2 ?a3 ?a4 ?s] =>
      destruct (Chart a1 a2 a3 a4 s) as [[[] | ?x] ?e] eqn:?
  end; simpl in *.

Ltac outcomes := repeat outcome.

(** ** The shape of a run *)

Lemma get_query_trace self question verbose distinct w :
  calls (snd (get_query self question verbose distinct w))
  = calls w ++ get_query_calls self question distinct (ext_state w).
Proof.
  unfold get_query_calls, selection. destruct verbose; exec;
    outcomes; rewrite <- ?app_assoc; reflexivity.
Qed.

Lemma query_db_trace self question verbose chart size distinct w :
  calls (snd (query_db self question verbose chart size distinct w))
  = calls (snd (get_query self question verbose distinct w))
    ++ query_db_tail self question chart size
         (get_query self question verbose distinct w).
Proof.
  unfold query_db, query_db_tail, backend_call, backend_run, bind.
  destruct (get_query self question verbose distinct w) as [[query | x] w1];
    simpl; [| now rewrite app_nil_r].
  unfold getattr, extern, ret.
  destruct chart; outcomes; rewrite <- ?app_assoc; reflexivity.
Qed.

Lemma get_query_calls_during self question verbose distinct w :
  calls_during (get_query self question verbose distinct) w
  = get_query_calls self question distinct (ext_state w).
Proof. apply calls_during_app, get_query_trace. Qed.

Lemma query_db_calls_during self question verbose chart size distinct w :
  calls_during (query_db self question verbose chart size distinct) w
  = get_query_calls self question distinct (ext_state w)
    ++ query_db_tail self question chart size
         (get_query self question verbose distinct w).
Proof.
  apply calls_during_app.
  now rewrite query_db_trace, get_query_trace, app_assoc.
Qed.

(** [get_query] never reaches the execution backend. *)
Lemma get_query_calls_no_backend self question distinct e :
  filter is_backend (get_query_calls self question distinct e) = [].
Proof.
  unfold get_query_calls, selection. simpl.
  outcomes; reflexivity.
Qed.

(** The outcome and the external state of [get_query] once a table is in
    [df]: those of the synthesizer. *)
Lemma get_query_selected self question verbose distinct w nlp e1 df e2 :
  Nlp (data_dir self) (schema_dir self) (aws_s3 self) (access_key_id self)
      (secret_access_key self) (ext_state w) = (Ret nlp, e1) ->
  selection self nlp question e1 = (Ret (Some df), e2) ->
  fst (get_query self question verbose distinct w)
  = match fst (get_sql_query nlp df question distinct e2) with
    | Ret s => Ret (Some s)
    | Raise x => Raise x
    end
  /\ ext_state (snd (get_query self question verbose distinct w))
     = snd (get_sql_query nlp df question distinct e2)
  /\ root_level (snd (get_query self question verbose distinct w))
     = (if verbose then INFO else WARNING)
  /\ stdout (snd (get_query self question verbose distinct w)) = stdout w.
Proof.
  intros Hnlp Hsel. unfold selection in Hsel. exec. rewrite Hnlp. simpl.
  destruct (data_dir self) as [p | d]; simpl in *.
  - rewrite Hsel. simpl. destruct verbose; simpl; outcomes; auto.
  - injection Hsel as <- <-. destruct verbose; simpl; outcomes; auto.
Qed.

(** ** No table found *)

(** The whole run of [get_query] when the selector answers [None]. *)
Lemma get_query_none_run self question verbose distinct w p nlp e1 e2 :
  data_dir self = Path p ->
  Nlp (data_dir self) (schema_dir self) (aws_s3 self) (access_key_id self)
      (secret_access_key self) (ext_state w) = (Ret nlp, e1) ->
  csv_select nlp question e1 = (Ret None, e2) ->
  get_query self question verbose distinct w =
    (Ret None,
     mkWorld (root_level w) (log_state w)
             (stdout w ++ ["Sorry,didn't catch that"])
             (calls w ++ [CNlp (data_dir self) (schema_dir self) (aws_s3 self)
                               (access_key_id self) (secret_access_key self);
                          CCsvSelect nlp question])
             e2).
Proof.
  intros Hdir Hnlp Hsel. exec.
  rewrite Hnlp. simpl. rewrite Hdir. simpl. rewrite Hsel. simpl.
  now rewrite <- app_assoc.
Qed.

(** C1.  When the agent works on a folder, [Nlp(...)] has returned and
    the table selector answers [None], [get_query] does not raise but
    returns [None], having printed its not-understood line; it has called
    nothing but the constructor and the selector, in particular not the
    synthesizer, and has left the logging state alone. *)
Theorem get_query_no_table self question verbose distinct w p nlp e1 e2 :
  data_dir self = Path p ->
  Nlp (data_dir self) (schema_dir self) (aws_s3 self) (access_key_id self)
      (secret_access_key self) (ext_state w) = (Ret nlp, e1) ->
  csv_select nlp question e1 = (Ret None, e2) ->
  fst (get_query self question verbose distinct w) = Ret None
  /\ stdout (snd (get_query self question verbose distinct w))
     = stdout w ++ ["Sorry,didn't catch that"]
  /\ calls_during (get_query self question verbose distinct) w
     = [CNlp (data_dir self) (schema_dir self) (aws_s3 self)
             (access_key_id self) (secret_access_key self);
        CCsvSelect nlp question]
  /\ root_level (snd (get_query self question verbose distinct w))
     = root_level w
  /\ log_state (snd (get_query self question verbose distinct w))
     = log_state w.
Proof.
  intros Hdir Hnlp Hsel.
  pose proof (get_query_none_run self question verbose distinct w p nlp e1 e2
                                 Hdir Hnlp Hsel) as Hrun.
  repeat split; try (rewrite Hrun; reflexivity).
  apply calls_during_app. rewrite Hrun. reflexivity.
Qed.

(** ** The verbose flag *)

(** C2.  From the same state, with the same question and [distinct], the
    verbose and the quiet run of [get_query] end with the same outcome
    (the same query, the same [None], or the same exception); they also
    print the same, make the same calls and leave [nlp]'s state the same.
    Only the logging state can differ. *)
Theorem get_query_verbose_noninterference self question distinct w :
  fst (get_query self question true distinct w)
  = fst (get_query self question false distinct w)
  /\ stdout (snd (get_query self question true distinct w))
     = stdout (snd (get_query self question false distinct w))
  /\ calls (snd (get_query self question true distinct w))
     = calls (snd (get_query self question false distinct w))
  /\ ext_state (snd (get_query self question true distinct w))
     = ext_state (snd (get_query self question false distinct w)).
Proof.
  exec. outcomes; auto.
Qed.

(** ** A table in memory *)

(** C9.  When [data_dir] is a table in memory, [get_query] never calls
    the table selector, never prints the not-understood line and never
    returns [None]; once [Nlp(...)] has returned, the synthesizer is
    called on that very table and [get_query] ends as the synthesizer
    does, with its query string when it returns one. *)
Theorem get_query_in_memory_table self question verbose distinct w df :
  data_dir self = Frame df ->
  filter is_selector
         (calls_during (get_query self question verbose distinct) w) = []
  /\ stdout (snd (get_query self question verbose distinct w)) = stdout w
  /\ fst (get_query self question verbose distinct w) <> Ret None
  /\ forall nlp e1,
       Nlp (data_dir self) (schema_dir self) (aws_s3 self)
           (access_key_id self) (secret_access_key self) (ext_state w)
       = (Ret nlp, e1) ->
       In (CGetSqlQuery nlp df question distinct)
          (calls_during (get_query self question verbose distinct) w)
       /\ fst (get_query self question verbose distinct w)
          = match fst (get_sql_query nlp df question distinct e1) with
            | Ret s => Ret (Some s)
            | Raise x => Raise x
            end.
Proof.
  intros Hdir. split; [| split; [| split]].
  - rewrite get_query_calls_during. unfold get_query_calls, selection.
    rewrite Hdir. simpl. outcomes; reflexivity.
  - exec. rewrite Hdir. destruct verbose; outcomes; reflexivity.
  - exec. rewrite Hdir. destruct verbose; outcomes; discriminate.
  - intros nlp e1 Hnlp. split.
    + rewrite get_query_calls_during. unfold get_query_calls, selection.
      rewrite Hnlp, Hdir. simpl. auto.
    + apply (get_query_selected self question verbose distinct w
                                nlp e1 df e1 Hnlp).
      unfold selection. now rewrite Hdir.
Qed.

(** ** The root logger *)

(** C10.  Whenever [get_query] gets as far as a table (the one in memory
    or the one the selector returned), the root logger is left at [INFO]
    by a verbose call and at [WARNING] by a quiet one, whatever the level
    was before and whether or not the synthesizer then raises. *)
Theorem get_query_sets_root_level self question verbose distinct w
        nlp e1 df e2 :
  Nlp (data_dir self) (schema_dir self) (aws_s3 self) (access_key_id self)
      (secret_access_key self) (ext_state w) = (Ret nlp, e1) ->
  selection self nlp question e1 = (Ret (Some df), e2) ->
  root_level (snd (get_query self question verbose distinct w))
  = (if verbose then INFO else WARNING).
Proof.
  intros Hnlp Hsel.
  apply (get_query_selected self question verbose distinct w
                            nlp e1 df e2 Hnlp Hsel).
Qed.

(** ** query_db: the answer *)

(** Everything [query_db] does after [get_query], once the connection
    object exists and the backend has answered. *)
Lemma query_db_run self question verbose chart size distinct w
      query w1 db e2 answer e3 :
  get_query self question verbose distinct w = (Ret query, w1) ->
  Database (data_dir self) (schema_dir self) (aws_s3 self)
           (access_key_id self) (secret_access_key self) (ext_state w1)
  = (Ret db, e2) ->
  backend_run self db question query e2 = (Ret answer, e3) ->
  query_db self question verbose chart size distinct w
  = match chart with
    | None =>
        (Ret answer,
         mkWorld (root_level w1) (log_state w1) (stdout w1)
                 (calls w1
                  ++ [CDatabase (data_dir self) (schema_dir self)
                                (aws_s3 self) (access_key_id self)
                                (secret_access_key self);
                      backend_call self db question query])
                 e3)
    | Some kind =>
        (match fst (Chart kind query answer size e3) with
         | Ret _ => Ret answer
         | Raise x => Raise x
         end,
         mkWorld (root_level w1) (log_state w1) (stdout w1)
                 (calls w1
                  ++ [CDatabase (data_dir self) (schema_dir self)
                                (aws_s3 self) (access_key_id self)
                                (secret_access_key self);
                      backend_call self db question query;
                      CChart kind query answer size])
                 (snd (Chart kind query answer size e3)))
    end.
Proof.
  intros Hq Hdb Hrun. unfold backend_run in Hrun. unfold backend_call.
  unfold query_db, bind. rewrite Hq. unfold getattr, extern, ret. simpl.
  rewrite Hdb. simpl.
  destruct (aws_db self); simpl; rewrite Hrun; simpl;
    destruct chart as [kind |]; simpl; rewrite <- ?app_assoc; simpl;
    try reflexivity;
    destruct (Chart kind query answer size e3) as [[[] | x] e4];
    reflexivity.
Qed.

(** C3.  Once the backend has answered, the only value [query_db] can
    return is that answer: with no chart it is returned as it is; with a
    chart the chart module is called on the query, the answer and the
    size, and when that call returns the same answer is returned. *)
Theorem query_db_returns_backend_answer self question verbose chart size
        distinct w query w1 db e2 answer e3 :
  get_query self question verbose distinct w = (Ret query, w1) ->
  Database (data_dir self) (schema_dir self) (aws_s3 self)
           (access_key_id self) (secret_access_key self) (ext_state w1)
  = (Ret db, e2) ->
  backend_run self db question query e2 = (Ret answer, e3) ->
  (forall v,
      fst (query_db self question verbose chart size distinct w) = Ret v ->
      v = answer)
  /\ match chart with
     | None =>
         fst (query_db self question verbose chart size distinct w)
         = Ret answer
     | Some kind =>
         In (CChart kind query answer size)
            (calls_during
               (query_db self question verbose chart size distinct) w)
         /\ (returned (fst (Chart kind query answer size e3)) = true ->
             fst (query_db self question verbose chart size distinct w)
             = Ret answer)
     end.
Proof.
  intros Hq Hdb Hrun.
  pose proof (query_db_run self question verbose chart size distinct w
                           query w1 db e2 answer e3 Hq Hdb Hrun) as Hdbq.
  split.
  - intros v. rewrite Hdbq.
    destruct chart as [kind |]; simpl.
    + destruct (fst (Chart kind query answer size e3)); congruence.
    + congruence.
  - destruct chart as [kind |].
    + split.
      * rewrite query_db_calls_during. apply in_or_app. right.
        unfold query_db_tail. rewrite Hq, Hdb, Hrun. simpl. auto.
      * rewrite Hdbq. simpl.
        destruct (fst (Chart kind query answer size e3)); simpl;
          [reflexivity | discriminate].
    + now rewrite Hdbq.
Qed.

(** C4, as the code has it.  With a chart asked for and the backend
    having answered, the chart module is called once, last; when it
    returns, [query_db] returns the backend's answer, and when it raises,
    [query_db] raises the same exception in place of the answer. *)
Theorem query_db_chart_outcome self question verbose kind size
        distinct w query w1 db e2 answer e3 :
  get_query self question verbose distinct w = (Ret query, w1) ->
  Database (data_dir self) (schema_dir self) (aws_s3 self)
           (access_key_id self) (secret_access_key self) (ext_state w1)
  = (Ret db, e2) ->
  backend_run self db question query e2 = (Ret answer, e3) ->
  fst (query_db self question verbose (Some kind) size distinct w)
  = match fst (Chart kind query answer size e3) with
    | Ret _ => Ret answer
    | Raise x => Raise x
    end
  /\ calls (snd (query_db self question verbose (Some kind) size distinct w))
     = calls w1
       ++ [CDatabase (data_dir self) (schema_dir self) (aws_s3 self)
                     (access_key_id self) (secret_access_key self);
           backend_call self db question query;
           CChart kind query answer size].
Proof.
  intros Hq Hdb Hrun.
  rewrite (query_db_run self question verbose (Some kind) size distinct w
                        query w1 db e2 answer e3 Hq Hdb Hrun).
  split; reflexivity.
Qed.

(** ** query_db: the execution backend *)

(** Whatever happens, one call of [query_db] reaches the backend at most
    once. *)
Lemma query_db_backend_at_most_once self question verbose chart size
      distinct w :
  length (filter is_backend
            (calls_during
               (query_db self question verbose chart size distinct) w))
  <= 1.
Proof.
  rewrite query_db_calls_during, filter_app, get_query_calls_no_backend.
  simpl. unfold query_db_tail, backend_call, backend_run.
  destruct (get_query self question verbose distinct w) as [[query | x] w1];
    simpl; [| lia].
  destruct chart; outcomes; lia.
Qed.

(** With the connection object built, the backend is called exactly
    once, whether the call returns or raises. *)
Lemma query_db_backend_calls self question verbose chart size distinct w
      query w1 db e2 :
  get_query self question verbose distinct w = (Ret query, w1) ->
  Database (data_dir self) (schema_dir self) (aws_s3 self)
           (access_key_id self) (secret_access_key self) (ext_state w1)
  = (Ret db, e2) ->
  filter is_backend
         (calls_during (query_db self question verbose chart size distinct) w)
  = [backend_call self db question query].
Proof.
  intros Hq Hdb.
  rewrite query_db_calls_during, filter_app, get_query_calls_no_backend.
  unfold query_db_tail. rewrite Hq, Hdb. simpl.
  assert (Hb : is_backend (backend_call self db question query) = true)
    by (unfold backend_call; destruct (aws_db self); reflexivity).
  rewrite Hb.
  destruct (backend_run self db question query e2) as [[answer | x] e3];
    destruct chart; reflexivity.
Qed.

(** C5.  Once [get_query] and [Database(...)] have returned, [query_db]
    calls the backend exactly once, whether that call returns or raises:
    [fetch_data_aws] when [aws_db] is set and [fetch_data] otherwise, on
    the question, the query and the agent's connection settings.  When
    the call raises, [query_db] raises the same exception and calls
    nothing further. *)
Theorem query_db_backend_once self question verbose chart size distinct w
        query w1 db e2 :
  get_query self question verbose distinct w = (Ret query, w1) ->
  Database (data_dir self) (schema_dir self) (aws_s3 self)
           (access_key_id self) (secret_access_key self) (ext_state w1)
  = (Ret db, e2) ->
  filter is_backend
         (calls_during (query_db self question verbose chart size distinct) w)
  = [backend_call self db question query]
  /\ is_aws_backend (backend_call self db question query) = aws_db self
  /\ forall x,
       fst (backend_run self db question query e2) = Raise x ->
       fst (query_db self question verbose chart size distinct w) = Raise x
       /\ calls (snd (query_db self question verbose chart size distinct w))
          = calls w1
            ++ [CDatabase (data_dir self) (schema_dir self) (aws_s3 self)
                          (access_key_id self) (secret_access_key self);
                backend_call self db question query].
Proof.
  intros Hq Hdb. split; [| split].
  - now apply query_db_backend_calls with (w1 := w1) (e2 := e2).
  - unfold backend_call. destruct (aws_db self); reflexivity.
  - intros x Hx. unfold backend_run in Hx. unfold backend_call.
    unfold query_db, bind. rewrite Hq. unfold getattr, extern, ret. simpl.
    rewrite Hdb. simpl.
    destruct (aws_db self); simpl in *; outcomes; try discriminate;
      injection Hx as <-; rewrite <- app_assoc; auto.
Qed.

(** C8.  When the agent works on a folder and the selector answers
    [None], [query_db] prints the not-understood line and goes on: once
    [Database(...)] has returned, the backend is called, once, with
    [None] for the query, and with no chart asked for [query_db] ends as
    that call does. *)
Theorem query_db_no_table_still_executes self question verbose chart size
        distinct w p nlp e1 e2 db e3 :
  data_dir self = Path p ->
  Nlp (data_dir self) (schema_dir self) (aws_s3 self) (access_key_id self)
      (secret_access_key self) (ext_state w) = (Ret nlp, e1) ->
  csv_select nlp question e1 = (Ret None, e2) ->
  Database (data_dir self) (schema_dir self) (aws_s3 self)
           (access_key_id self) (secret_access_key self) e2 = (Ret db, e3) ->
  stdout (snd (query_db self question verbose chart size distinct w))
  = stdout w ++ ["Sorry,didn't catch that"]
  /\ filter is_backend
       (calls_during (query_db self question verbose chart size distinct) w)
     = [backend_call self db question None]
  /\ (chart = None ->
      fst (query_db self question verbose chart size distinct w)
      = fst (backend_run self db question None e3)).
Proof.
  intros Hdir Hnlp Hsel Hdb.
  pose proof (get_query_none_run self question verbose distinct w p nlp e1 e2
                                 Hdir Hnlp Hsel) as Hq.
  split; [| split].
  - unfold query_db, bind. rewrite Hq. unfold getattr, extern, ret. simpl.
    rewrite Hdb. simpl.
    destruct chart; outcomes; reflexivity.
  - eapply query_db_backend_calls; [exact Hq | exact Hdb].
  - intros ->. unfold backend_run.
    unfold query_db, bind. rewrite Hq. unfold getattr, extern, ret. simpl.
    rewrite Hdb. simpl.
    outcomes; reflexivity.
Qed.

(** ** The distinct flag *)

(** A query string returned by [get_query] is one the synthesizer
    returned for the caller's question and the caller's [distinct]. *)
Lemma get_query_some_from_synthesizer self question verbose distinct w s :
  fst (get_query self question verbose distinct w) = Ret (Some s) ->
  exists nlp df e,
    In (CGetSqlQuery nlp df question distinct)
       (calls_during (get_query self question verbose distinct) w)
    /\ fst (get_sql_query nlp df question distinct e) = Ret s.
Proof.
  rewrite get_query_calls_during.
  unfold get_query_calls, selection. exec.
  destruct verbose; outcomes; intros Hs; try discriminate;
    injection Hs as <-; eexists _, _, _;
    (split; [simpl; eauto using in_eq, in_cons
            | match goal with H : get_sql_query _ _ _ _ _ = _ |- _ =>
                rewrite H end; reflexivity]).
Qed.

(** Every backend call of [query_db] executes what its [get_query]
    returned. *)
Lemma query_db_backend_gets_query self question verbose chart size
      distinct w c :
  In c (calls_during (query_db self question verbose chart size distinct) w) ->
  is_backend c = true ->
  fst (get_query self question verbose distinct w) = Ret (backend_query c).
Proof.
  rewrite query_db_calls_during. intros Hin Hc.
  apply in_app_or in Hin. destruct Hin as [Hin | Hin].
  - exfalso. revert Hin Hc. unfold get_query_calls, selection.
    outcomes; simpl; intros Hin Hc;
      repeat (destruct Hin as [<- | Hin]; [discriminate |]);
      destruct Hin.
  - revert Hin. unfold query_db_tail.
    destruct (get_query self question verbose distinct w) as [[query | x] w1];
      [| intros []].
    unfold backend_call, backend_run. simpl.
    destruct chart as [kind |]; outcomes; intros Hin;
      repeat (destruct Hin as [<- | Hin]; [try discriminate |]);
      try destruct Hin; reflexivity.
Qed.

(** C6.  The caller's [distinct] reaches the synthesizer as it is, and
    what the synthesizer answers for it is what is returned and what is
    executed.

    - Every synthesizer call made during [get_query] or [query_db]
      carries the caller's question and the caller's [distinct].
    - A query string returned by [get_query] is one the synthesizer
      returned for that question and that flag.
    - Once [Nlp(...)] has returned and a table is in [df], [get_query]
      and [query_db] each call the synthesizer exactly once, on that
      table, that question and that flag; [get_query] ends as this call
      does; and when the call returns a string and [Database(...)]
      returns, the one backend call of [query_db] is given that string.
    - For a synthesizer that honours the flag as the specification
      demands of it, the query [get_query] returns and the query
      [query_db] gives to the backend are distinct exactly when the
      caller's flag is set, whatever the question says. *)
Theorem distinct_forwarded_unchanged self question verbose chart size
        distinct w :
  Forall (synthesizer_gets question distinct)
         (calls_during (get_query self question verbose distinct) w)
  /\ Forall (synthesizer_gets question distinct)
            (calls_during
               (query_db self question verbose chart size distinct) w)
  /\ (forall s,
       fst (get_query self question verbose distinct w) = Ret (Some s) ->
       exists nlp df e,
         In (CGetSqlQuery nlp df question distinct)
            (calls_during (get_query self question verbose distinct) w)
         /\ fst (get_sql_query nlp df question distinct e) = Ret s)
  /\ (forall nlp e1 df e2,
       Nlp (data_dir self) (schema_dir self) (aws_s3 self)
           (access_key_id self) (secret_access_key self) (ext_state w)
       = (Ret nlp, e1) ->
       selection self nlp question e1 = (Ret (Some df), e2) ->
       filter is_synthesizer
              (calls_during (get_query self question verbose distinct) w)
       = [CGetSqlQuery nlp df question distinct]
       /\ filter is_synthesizer
            (calls_during
               (query_db self question verbose chart size distinct) w)
          = [CGetSqlQuery nlp df question distinct]
       /\ fst (get_query self question verbose distinct w)
          = match fst (get_sql_query nlp df question distinct e2) with
            | Ret s => Ret (Some s)
            | Raise x => Raise x
            end
       /\ forall s e3 db e4,
            get_sql_query nlp df question distinct e2 = (Ret s, e3) ->
            Database (data_dir self) (schema_dir self) (aws_s3 self)
                     (access_key_id self) (secret_access_key self) e3
            = (Ret db, e4) ->
            filter is_backend
                   (calls_during
                      (query_db self question verbose chart size distinct) w)
            = [backend_call self db question (Some s)])
  /\ (forall reads,
       honours_distinct reads ->
       (forall s,
           fst (get_query self question verbose distinct w) = Ret (Some s) ->
           reads s = distinct)
       /\ (forall c s,
             In c (calls_during
                     (query_db self question verbose chart size distinct) w) ->
             is_backend c = true ->
             backend_query c = Some s ->
             reads s = distinct)).
Proof.
  assert (Hq : Forall (synthesizer_gets question distinct)
                 (get_query_calls self question distinct (ext_state w))).
  { unfold get_query_calls, selection.
    outcomes; repeat constructor. }
  assert (Hreads : forall reads, honours_distinct reads -> forall s,
             fst (get_query self question verbose distinct w) = Ret (Some s) ->
             reads s = distinct).
  { intros reads Hreads s Hs.
    destruct (get_query_some_from_synthesizer self question verbose distinct
                w s Hs) as (nlp & df & e & _ & Hsyn).
    exact (Hreads nlp df question distinct e s Hsyn). }
  split; [| split; [| split; [| split]]].
  - now rewrite get_query_calls_during.
  - rewrite query_db_calls_during. apply Forall_app. split; [exact Hq |].
    unfold query_db_tail, backend_call, backend_run.
    destruct (get_query self question verbose distinct w) as [[query | x] w1];
      [| constructor].
    destruct chart; outcomes; repeat constructor.
  - intros s. apply get_query_some_from_synthesizer.
  - intros nlp e1 df e2 Hnlp Hsel.
    assert (Hsyn : filter is_synthesizer
                     (get_query_calls self question distinct (ext_state w))
                   = [CGetSqlQuery nlp df question distinct]).
    { unfold get_query_calls. rewrite Hnlp, Hsel. simpl.
      rewrite filter_app. destruct (data_dir self); reflexivity. }
    destruct (get_query_selected self question verbose distinct w nlp e1 df e2
                Hnlp Hsel) as (Hres & Hext & _).
    split; [| split; [| split]].
    + now rewrite get_query_calls_during.
    + rewrite query_db_calls_during, filter_app, Hsyn.
      unfold query_db_tail, backend_call, backend_run.
      destruct (get_query self question verbose distinct w)
        as [[query | x] w1]; [| reflexivity].
      destruct chart; outcomes; reflexivity.
    + exact Hres.
    + intros s e3 db e4 Hs Hdb. rewrite Hs in Hres, Hext.
      destruct (get_query self question verbose distinct w) as [r w1] eqn:Hrun.
      simpl in Hres, Hext. subst r e3.
      rewrite <- Hrun in *.
      exact (query_db_backend_calls self question verbose chart size distinct
               w (Some s) w1 db e4 Hrun Hdb).
  - intros reads Hr. split; [exact (Hreads reads Hr) |].
    intros c s Hin Hc Hquery.
    apply (Hreads reads Hr).
    rewrite <- Hquery.
    exact (query_db_backend_gets_query self question verbose chart size
             distinct w c Hin Hc).
Qed.

(** ** Schema state *)

(** C7, as the code has it.  The agent keeps no schema state between
    calls: every [get_query] builds one new [Nlp] from the agent's
    [data_dir] and [schema_dir], every [query_db] does so through its
    [get_query], and once that has returned [query_db] also builds one
    new [Database] from them. *)
Theorem each_call_builds_schema_state self question verbose chart size
        distinct w :
  filter is_Nlp (calls_during (get_query self question verbose distinct) w)
  = [CNlp (data_dir self) (schema_dir self) (aws_s3 self)
          (access_key_id self) (secret_access_key self)]
  /\ filter is_Nlp
       (calls_during (query_db self question verbose chart size distinct) w)
     = [CNlp (data_dir self) (schema_dir self) (aws_s3 self)
             (access_key_id self) (secret_access_key self)]
  /\ (returned (fst (get_query self question verbose distinct w)) = true ->
      filter is_Database
        (calls_during (query_db self question verbose chart size distinct) w)
      = [CDatabase (data_dir self) (schema_dir self) (aws_s3 self)
                   (access_key_id self) (secret_access_key self)]).
Proof.
  assert (Hq : filter is_Nlp
                 (get_query_calls self question distinct (ext_state w))
               = [CNlp (data_dir self) (schema_dir self) (aws_s3 self)
                       (access_key_id self) (secret_access_key self)]).
  { unfold get_query_calls, selection. simpl. outcomes; reflexivity. }
  assert (Hd : filter is_Database
                 (get_query_calls self question distinct (ext_state w)) = []).
  { unfold get_query_calls, selection. simpl. outcomes; reflexivity. }
  split; [| split].
  - now rewrite get_query_calls_during.
  - rewrite query_db_calls_during, filter_app, Hq.
    unfold query_db_tail, backend_call, backend_run.
    destruct (get_query self question verbose distinct w) as [[query | x] w1];
      [| reflexivity].
    destruct chart; outcomes; reflexivity.
  - rewrite query_db_calls_during, filter_app, Hd.
    unfold query_db_tail, backend_call, backend_run.
    destruct (get_query self question verbose distinct w) as [[query | x] w1];
      simpl; [intros _ | discriminate].
    destruct chart; outcomes; reflexivity.
Qed.

(** * Further properties of the two entry points *)

(** ** Failures inside get_query *)

(** X1.  When [Nlp(...)] raises, [get_query] raises the same exception
    at once: the selector and the synthesizer are not called, nothing is
    printed and the logging state is as it was. *)
Theorem get_query_constructor_failure self question verbose distinct w x e1 :
  Nlp (data_dir self) (schema_dir self) (aws_s3 self) (access_key_id self)
      (secret_access_key self) (ext_state w) = (Raise x, e1) ->
  get_query self question verbose distinct w
  = (Raise x,
     mkWorld (root_level w) (log_state w) (stdout w)
             (calls w ++ [CNlp (data_dir self) (schema_dir self) (aws_s3 self)
                               (access_key_id self) (secret_access_key self)])
             e1).
Proof.
  intros Hnlp. exec. rewrite Hnlp. reflexivity.
Qed.

(** X2.  When the table selector raises, [get_query] raises the same
    exception: the synthesizer is not called, the not-understood line is
    not printed and the root logger keeps its level. *)
Theorem get_query_selector_failure self question verbose distinct w
        p nlp e1 x e2 :
  data_dir self = Path p ->
  Nlp (data_dir self) (schema_dir self) (aws_s3 self) (access_key_id self)
      (secret_access_key self) (ext_state w) = (Ret nlp, e1) ->
  csv_select nlp question e1 = (Raise x, e2) ->
  get_query self question verbose distinct w
  = (Raise x,
     mkWorld (root_level w) (log_state w) (stdout w)
             (calls w ++ [CNlp (data_dir self) (schema_dir self) (aws_s3 self)
                               (access_key_id self) (secret_access_key self);
                          CCsvSelect nlp question])
             e2).
Proof.
  intros Hdir Hnlp Hsel. exec.
  rewrite Hnlp. simpl. rewrite Hdir. simpl. rewrite Hsel. simpl.
  now rewrite <- app_assoc.
Qed.

(** X3.  When the synthesizer raises, [get_query] raises the same
    exception and the query is not logged: a verbose call has only
    fetched its logger, a quiet call has left the logger registry
    alone.  Nothing is printed. *)
Theorem get_query_synthesizer_failure self question verbose distinct w
        nlp e1 df e2 x e3 :
  Nlp (data_dir self) (schema_dir self) (aws_s3 self) (access_key_id self)
      (secret_access_key self) (ext_state w) = (Ret nlp, e1) ->
  selection self nlp question e1 = (Ret (Some df), e2) ->
  get_sql_query nlp df question distinct e2 = (Raise x, e3) ->
  fst (get_query self question verbose distinct w) = Raise x
  /\ log_state (snd (get_query self question verbose distinct w))
     = (if verbose then snd (get_logger module_name (log_state w))
        else log_state w)
  /\ stdout (snd (get_query self question verbose distinct w)) = stdout w
  /\ ext_state (snd (get_query self question verbose distinct w)) = e3.
Proof.
  intros Hnlp Hsel Hsyn. unfold selection in Hsel. exec. rewrite Hnlp. simpl.
  destruct (data_dir self) as [p | d]; simpl in *.
  - rewrite Hsel. simpl.
    destruct verbose; simpl;
      [destruct (get_logger module_name (log_state w)) as [lg c]; simpl |];
      rewrite Hsyn; simpl; auto.
  - injection Hsel as <- <-.
    destruct verbose; simpl;
      [destruct (get_logger module_name (log_state w)) as [lg c]; simpl |];
      rewrite Hsyn; simpl; auto.
Qed.

(** ** What get_query prints, logs and calls *)

(** X4.  [get_query] prints exactly when it returns [None]: one line,
    the not-understood line, in that case, and nothing when it returns a
    query or raises. *)
Theorem get_query_prints_iff_none self question verbose distinct w :
  stdout (snd (get_query self question verbose distinct w))
  = match fst (get_query self question verbose distinct w) with
    | Ret None => stdout w ++ ["Sorry,didn't catch that"]
    | _ => stdout w
    end.
Proof.
  exec. destruct verbose; outcomes; reflexivity.
Qed.

(** X5.  A quiet call leaves the logger registry as it was.  A verbose
    call that returns a query has fetched the logger of the module and
    logged that very query through it, once, with the root logger
    already at [INFO]. *)
Theorem get_query_logs_returned_query self question distinct w :
  log_state (snd (get_query self question false distinct w)) = log_state w
  /\ forall s,
       fst (get_query self question true distinct w) = Ret (Some s) ->
       log_state (snd (get_query self question true distinct w))
       = logger_info (fst (get_logger module_name (log_state w))) INFO
                     "SQL query = %s" s
                     (snd (get_logger module_name (log_state w))).
Proof.
  split.
  - exec. outcomes; reflexivity.
  - intros s. exec. outcomes; intros Hs; try discriminate;
      injection Hs as <-; reflexivity.
Qed.

(** X6.  [get_query] only generates: it never builds a [Database], never
    calls [fetch_data] or [fetch_data_aws] and never draws a chart. *)
Theorem get_query_never_executes self question verbose distinct w :
  Forall (fun c => executes c = false)
         (calls_during (get_query self question verbose distinct) w).
Proof.
  rewrite get_query_calls_during. unfold get_query_calls, selection.
  outcomes; repeat constructor.
Qed.

(** ** Failures inside query_db before the backend *)

(** X7.  When [get_query] raises, [query_db] raises the same exception
    from the same state, and has called nothing that [get_query] did not
    call: no [Database], no backend, no chart. *)
Theorem query_db_generation_failure self question verbose chart size
        distinct w x w1 :
  get_query self question verbose distinct w = (Raise x, w1) ->
  query_db self question verbose chart size distinct w = (Raise x, w1)
  /\ Forall (fun c => executes c = false)
            (calls_during
               (query_db self question verbose chart size distinct) w).
Proof.
  intros Hq. split.
  - unfold query_db, bind. now rewrite Hq.
  - rewrite query_db_calls_during. unfold query_db_tail. rewrite Hq.
    rewrite app_nil_r. unfold get_query_calls, selection.
    outcomes; repeat constructor.
Qed.

(** X8.  When [Database(...)] raises, [query_db] raises the same
    exception: the query that was generated is not executed and no chart
    is drawn. *)
Theorem query_db_database_failure self question verbose chart size
        distinct w query w1 x e2 :
  get_query self question verbose distinct w = (Ret query, w1) ->
  Database (data_dir self) (schema_dir self) (aws_s3 self)
           (access_key_id self) (secret_access_key self) (ext_state w1)
  = (Raise x, e2) ->
  query_db self question verbose chart size distinct w
  = (Raise x,
     mkWorld (root_level w1) (log_state w1) (stdout w1)
             (calls w1
              ++ [CDatabase (data_dir self) (schema_dir self) (aws_s3 self)
                            (access_key_id self) (secret_access_key self)])
             e2)
  /\ filter is_backend
       (calls_during (query_db self question verbose chart size distinct) w)
     = [].
Proof.
  intros Hq Hdb. split.
  - unfold query_db, bind. rewrite Hq. unfold extern. simpl.
    rewrite Hdb. reflexivity.
  - rewrite query_db_calls_during, filter_app, get_query_calls_no_backend.
    unfold query_db_tail. rewrite Hq, Hdb. reflexivity.
Qed.

(** ** query_db as a whole *)

(** X9.  The verbose flag does not change what [query_db] does either:
    the verbose and the quiet run from one state end with the same
    answer or the same exception, after the same calls, with the same
    output and the same state of the modules. *)
Theorem query_db_verbose_noninterference self question chart size
        distinct w :
  fst (query_db self question true chart size distinct w)
  = fst (query_db self question false chart size distinct w)
  /\ stdout (snd (query_db self question true chart size distinct w))
     = stdout (snd (query_db self question false chart size distinct w))
  /\ calls (snd (query_db self question true chart size distinct w))
     = calls (snd (query_db self question false chart size distinct w))
  /\ ext_state (snd (query_db self question true chart size distinct w))
     = ext_state (snd (query_db self question false chart size distinct w)).
Proof.
  exec. destruct chart; outcomes; auto.
Qed.

(** X10.  [query_db] prints and logs nothing of its own: the output, the
    root logger's level and the logger registry it leaves are those its
    [get_query] left. *)
Theorem query_db_logging_frame self question verbose chart size distinct w :
  stdout (snd (query_db self question verbose chart size distinct w))
  = stdout (snd (get_query self question verbose distinct w))
  /\ root_level (snd (query_db self question verbose chart size distinct w))
     = root_level (snd (get_query self question verbose distinct w))
  /\ log_state (snd (query_db self question verbose chart size distinct w))
     = log_state (snd (get_query self question verbose distinct w)).
Proof.
  unfold query_db, bind.
  destruct (get_query self question verbose distinct w) as [[query | x] w1];
    [| auto].
  unfold getattr, extern, ret. simpl.
  destruct chart; outcomes; auto.
Qed.

(** X11.  A chart is drawn only on request and only from a result: any
    chart call made during [query_db] has the kind and the size the
    caller gave, the query [get_query] returned and the answer that the
    same call without a chart returns. *)
Theorem query_db_chart_only_from_answer self question verbose chart size
        distinct w c :
  In c (calls_during (query_db self question verbose chart size distinct) w) ->
  is_Chart c = true ->
  exists kind query answer,
    chart = Some kind
    /\ c = CChart kind query answer size
    /\ fst (get_query self question verbose distinct w) = Ret query
    /\ fst (query_db self question verbose None size distinct w)
       = Ret answer.
Proof.
  rewrite query_db_calls_during. intros Hin Hc.
  apply in_app_or in Hin. destruct Hin as [Hin | Hin].
  - exfalso. revert Hin Hc. unfold get_query_calls, selection.
    outcomes; simpl; intros Hin Hc;
      repeat (destruct Hin as [<- | Hin]; [discriminate |]);
      destruct Hin.
  - revert Hin. unfold query_db_tail, query_db, bind.
    destruct (get_query self question verbose distinct w) as [[query | x] w1];
      [| intros []].
    unfold backend_call, backend_run, getattr, extern, ret. simpl.
    destruct chart as [kind |]; outcomes; intros Hin;
      repeat (destruct Hin as [<- | Hin]; [try discriminate |]);
      try destruct Hin;
      eexists _, _, _; repeat split; reflexivity.
Qed.

(** X12.  One successful [query_db] on a folder, with a chart: the six
    calls are made in this order, and the backend and the chart module
    are given the query string the synthesizer has just returned. *)
Theorem query_db_call_order self question verbose kind size distinct w
        p nlp e1 df e2 s e3 db e4 answer e5 :
  data_dir self = Path p ->
  Nlp (data_dir self) (schema_dir self) (aws_s3 self) (access_key_id self)
      (secret_access_key self) (ext_state w) = (Ret nlp, e1) ->
  csv_select nlp question e1 = (Ret (Some df), e2) ->
  get_sql_query nlp df question distinct e2 = (Ret s, e3) ->
  Database (data_dir self) (schema_dir self) (aws_s3 self)
           (access_key_id self) (secret_access_key self) e3 = (Ret db, e4) ->
  backend_run self db question (Some s) e4 = (Ret answer, e5) ->
  calls_during (query_db self question verbose (Some kind) size distinct) w
  = [CNlp (data_dir self) (schema_dir self) (aws_s3 self)
          (access_key_id self) (secret_access_key self);
     CCsvSelect nlp question;
     CGetSqlQuery nlp df question distinct;
     CDatabase (data_dir self) (schema_dir self) (aws_s3 self)
               (access_key_id self) (secret_access_key self);
     backend_call self db question (Some s);
     CChart kind (Some s) answer size].
Proof.
  intros Hdir Hnlp Hsel Hsyn Hdb Hrun.
  assert (Hselection : selection self nlp question e1 = (Ret (Some df), e2))
    by (unfold selection; now rewrite Hdir).
  destruct (get_query_selected self question verbose distinct w nlp e1 df e2
              Hnlp Hselection) as (Hres & Hext & _).
  rewrite Hsyn in Hres, Hext. simpl in Hres, Hext.
  rewrite query_db_calls_during.
  unfold get_query_calls, query_db_tail.
  rewrite Hnlp, Hselection.
  destruct (get_query self question verbose distinct w) as [r w1].
  simpl in Hres, Hext. subst r e3. cbv iota.
  rewrite Hdb, Hrun, Hdir. reflexivity.
Qed.

(** ** The constructor's defaults *)

Lemma query_db_Nlp_calls self question verbose chart size distinct w :
  filter is_Nlp
         (calls_during (query_db self question verbose chart size distinct) w)
  = [CNlp (data_dir self) (schema_dir self) (aws_s3 self)
          (access_key_id self) (secret_access_key self)].
Proof.
  rewrite query_db_calls_during, filter_app.
  unfold get_query_calls, selection, query_db_tail, backend_call, backend_run.
  destruct (get_query self question verbose distinct w) as [[query | x] w1];
    simpl.
  - destruct chart; outcomes; reflexivity.
  - outcomes; reflexivity.
Qed.

Lemma query_db_local_calls self question verbose chart size distinct w :
  aws_db self = false ->
  filter is_aws_backend
         (calls_during (query_db self question verbose chart size distinct) w)
  = [].
Proof.
  intros Hlocal.
  rewrite query_db_calls_during, filter_app.
  unfold get_query_calls, selection, query_db_tail, backend_call, backend_run.
  rewrite Hlocal.
  destruct (get_query self question verbose distinct w) as [[query | x] w1];
    simpl.
  - destruct chart; outcomes; reflexivity.
  - outcomes; reflexivity.
Qed.

(** X13.  An agent built from a data source alone works locally: its
    [Nlp] gets no schema folder, no S3 mode and empty keys,
    [fetch_data_aws] is never called, and once the connection object
    exists the one backend call is [fetch_data] on sqlite, database "db"
    at "localhost", no user, no port, the database being dropped
    afterwards. *)
Theorem default_agent_is_local d question verbose chart size distinct w :
  filter is_Nlp
    (calls_during
       (query_db (Agent_default d) question verbose chart size distinct) w)
  = [CNlp d None false "" ""]
  /\ filter is_aws_backend
       (calls_during
          (query_db (Agent_default d) question verbose chart size distinct) w)
     = []
  /\ forall query w1 db e2,
       get_query (Agent_default d) question verbose distinct w
       = (Ret query, w1) ->
       Database d None false "" "" (ext_state w1) = (Ret db, e2) ->
       filter is_backend
         (calls_during
            (query_db (Agent_default d) question verbose chart size distinct)
            w)
       = [CFetchData db question query "sqlite" "" "" "db" "localhost"
                     None true].
Proof.
  split; [| split].
  - exact (query_db_Nlp_calls (Agent_default d) question verbose chart size
             distinct w).
  - now apply query_db_local_calls.
  - intros query w1 db e2 Hq Hdb.
    exact (query_db_backend_calls (Agent_default d) question verbose chart
             size distinct w query w1 db e2 Hq Hdb).
Qed.

End Properties.



(** * The properties on the small implementation *)

Import Demo.

(** "hello" names no table: nothing is selected. *)
Lemma get_query_no_table_demo :
  fst (get_query agent "hello" true false start) = Ret None
  /\ stdout (snd (get_query agent "hello" true false start))
     = ["Sorry,didn't catch that"]
  /\ calls_during (get_query agent "hello" true false) start
     = [CNlp (lib := lib) (Path "/data") None false "" "";
        CCsvSelect (lib := lib) tt "hello"]
  /\ root_level (snd (get_query agent "hello" true false start)) = WARNING
  /\ log_state (snd (get_query agent "hello" true false start)) = [].
Proof.
  apply (get_query_no_table agent "hello" true false start "/data" tt 0 0);
    reflexivity.
Defined.

(** A table in memory is used whatever the question says. *)
Lemma get_query_in_memory_table_demo :
  fst (get_query frame_agent "hello" false true start)
  = Ret (Some "SELECT DISTINCT * FROM orders")
  /\ filter is_selector
       (calls_during (get_query frame_agent "hello" false true) start) = [].
Proof.
  destruct (get_query_in_memory_table frame_agent "hello" false true start
              "orders" eq_refl) as (Hsel & _ & _ & Hsyn).
  destruct (Hsyn tt 0 eq_refl) as [_ Hres].
  split; [exact Hres | exact Hsel].
Defined.

(** The root logger after a verbose and after a quiet call. *)
Lemma get_query_sets_root_level_demo :
  root_level (snd (get_query agent "how many orders" true false start)) = INFO
  /\ root_level
       (snd (get_query agent "how many orders" false false
               (snd (get_query agent "how many orders" true false start))))
     = WARNING.
Proof.
  split.
  - apply (get_query_sets_root_level agent "how many orders" true false start
             tt 0 "orders" 0); reflexivity.
  - apply (get_query_sets_root_level agent "how many orders" false false
             (snd (get_query agent "how many orders" true false start))
             tt 0 "orders" 0); reflexivity.
Defined.

(** The demo synthesizer honours the flag: its query starts with
    SELECT DISTINCT exactly when the flag is set. *)
Lemma demo_honours_distinct :
  honours_distinct (lib := lib) (prefix "SELECT DISTINCT").
Proof.
  intros nlp df question d e s Hs. simpl in Hs.
  injection Hs as <-. destruct d; reflexivity.
Defined.

(** A question that says "distinct" does not make the query distinct, and
    the flag does: in [query_db] too the synthesizer is called once with
    the caller's flag, the backend executes what it returned, and that
    is distinct as the flag says. *)
Lemma distinct_forwarded_unchanged_demo :
  Forall (synthesizer_gets "distinct orders" false)
         (calls_during (get_query agent "distinct orders" false false) start)
  /\ (exists nlp df e,
       In (CGetSqlQuery nlp df "distinct orders" false)
          (calls_during (get_query agent "distinct orders" false false) start)
       /\ fst (get_sql_query nlp df "distinct orders" false e)
          = Ret "SELECT * FROM orders")
  /\ filter is_synthesizer
       (calls_during
          (query_db agent "distinct orders" false None default_size false)
          start)
     = [CGetSqlQuery (lib := lib) tt "orders" "distinct orders" false]
  /\ filter is_backend
       (calls_during
          (query_db agent "distinct orders" false None default_size false)
          start)
     = [CFetchData (lib := lib) tt "distinct orders"
          (Some "SELECT * FROM orders") "sqlite" "" "" "db" "localhost"
          None true]
  /\ filter is_backend
       (calls_during
          (query_db agent "list orders" false None default_size true) start)
     = [CFetchData (lib := lib) tt "list orders"
          (Some "SELECT DISTINCT * FROM orders") "sqlite" "" "" "db"
          "localhost" None true]
  /\ prefix "SELECT DISTINCT" "SELECT * FROM orders" = false
  /\ prefix "SELECT DISTINCT" "SELECT DISTINCT * FROM orders" = true.
Proof.
  destruct (distinct_forwarded_unchanged agent "distinct orders" false None
              default_size false start) as (Hq & _ & Hs & Hone & Hreads).
  destruct (Hone tt 0 "orders" 0 eq_refl eq_refl)
    as (_ & Hsyn & _ & Hexec).
  destruct (distinct_forwarded_unchanged agent "list orders" false None
              default_size true start) as (_ & _ & _ & Hone' & Hreads').
  destruct (Hone' tt 0 "orders" 0 eq_refl eq_refl)
    as (_ & _ & _ & Hexec').
  destruct (Hreads (prefix "SELECT DISTINCT") demo_honours_distinct)
    as [Hret _].
  destruct (Hreads' (prefix "SELECT DISTINCT") demo_honours_distinct)
    as [_ Hrun'].
  split; [| split; [| split; [| split; [| split; [| split]]]]].
  - exact Hq.
  - exact (Hs "SELECT * FROM orders" eq_refl).
  - exact Hsyn.
  - exact (Hexec "SELECT * FROM orders" 0 tt 0 eq_refl eq_refl).
  - exact (Hexec' "SELECT DISTINCT * FROM orders" 0 tt 0 eq_refl eq_refl).
  - exact (Hret "SELECT * FROM orders" eq_refl).
  - apply (Hrun' (CFetchData (lib := lib) tt "list orders"
                    (Some "SELECT DISTINCT * FROM orders") "sqlite" "" "" "db"
                    "localhost" None true)
                 "SELECT DISTINCT * FROM orders").
    + vm_compute. auto 10.
    + reflexivity.
    + reflexivity.
Defined.

(** The answer of the backend comes back, with and without a chart. *)
Lemma query_db_returns_backend_answer_demo :
  fst (query_db agent "list employees" false (Some "bar") default_size false
         start)
  = Ret [["local"; "SELECT * FROM employees"]].
Proof.
  destruct (query_db_returns_backend_answer agent "list employees" false
              (Some "bar") default_size false start
              (Some "SELECT * FROM employees")
              (snd (get_query agent "list employees" false false start))
              tt 0 [["local"; "SELECT * FROM employees"]] 1
              eq_refl eq_refl eq_refl) as (_ & _ & Hret).
  exact (Hret eq_refl).
Defined.

(** A chart kind the chart module does not know: the exception arrives. *)
Lemma query_db_chart_outcome_demo :
  fst (query_db agent "list employees" false (Some "pie") default_size false
         start)
  = Raise "AttributeError"
  /\ fst (query_db agent "list employees" false (Some "line") default_size
            false start)
     = Ret [["local"; "SELECT * FROM employees"]].
Proof.
  split.
  - apply (query_db_chart_outcome agent "list employees" false "pie"
             default_size false start (Some "SELECT * FROM employees")
             (snd (get_query agent "list employees" false false start))
             tt 0 [["local"; "SELECT * FROM employees"]] 1
             eq_refl eq_refl eq_refl).
  - apply (query_db_chart_outcome agent "list employees" false "line"
             default_size false start (Some "SELECT * FROM employees")
             (snd (get_query agent "list employees" false false start))
             tt 0 [["local"; "SELECT * FROM employees"]] 1
             eq_refl eq_refl eq_refl).
Defined.

(** C4 as stated fails: the same call returns its rows without a chart
    and raises with one. *)
Lemma chart_failure_reaches_caller :
  fst (query_db agent "list employees" false None default_size false start)
  = Ret [["local"; "SELECT * FROM employees"]]
  /\ fst (query_db agent "list employees" false (Some "pie") default_size
            false start)
     = Raise "AttributeError".
Proof. split; reflexivity. Qed.

(** One backend call, of the AWS kind for the AWS agent; a backend
    failure reaches the caller. *)
Lemma query_db_backend_once_demo :
  filter is_backend
         (calls_during
            (query_db aws_agent "list employees" false None default_size
                      false) start)
  = [CFetchDataAws (lib := lib) tt "list employees"
       (Some "SELECT * FROM employees") "mysql" "u" "p" "db" "h" None true]
  /\ fst (query_db agent "hello" false None default_size false start)
     = Raise "OperationalError".
Proof.
  split.
  - apply (query_db_backend_once aws_agent "list employees" false None
             default_size false start (Some "SELECT * FROM employees")
             (snd (get_query aws_agent "list employees" false false start))
             tt 0 eq_refl eq_refl).
  - destruct (query_db_backend_once agent "hello" false None default_size
                false start None
                (snd (get_query agent "hello" false false start))
                tt 0 eq_refl eq_refl) as (_ & _ & Hraise).
    exact (proj1 (Hraise "OperationalError" eq_refl)).
Defined.

(** No table, and still a backend call, on no query. *)
Lemma query_db_no_table_still_executes_demo :
  stdout (snd (query_db agent "hello" false None default_size false start))
  = ["Sorry,didn't catch that"]
  /\ filter is_backend
       (calls_during (query_db agent "hello" false None default_size false)
                     start)
     = [CFetchData (lib := lib) tt "hello" None "sqlite" "" "" "db"
          "localhost" None true]
  /\ fst (query_db agent "hello" false None default_size false start)
     = Raise "OperationalError".
Proof.
  destruct (query_db_no_table_still_executes agent "hello" false None
              default_size false start "/data" tt 0 0 tt 0
              eq_refl eq_refl eq_refl eq_refl) as (Hout & Hcalls & Hres).
  split; [exact Hout | split; [exact Hcalls | exact (Hres eq_refl)]].
Defined.

(** Each call builds its own [Nlp] and [Database]. *)
Lemma each_call_builds_schema_state_demo :
  filter is_Nlp
         (calls_during (get_query agent "how many orders" false false) start)
  = [CNlp (lib := lib) (Path "/data") None false "" ""]
  /\ filter is_Database
       (calls_during (query_db_default agent "how many orders") start)
     = [CDatabase (lib := lib) (Path "/data") None false "" ""].
Proof.
  destruct (each_call_builds_schema_state agent "how many orders" false None
              default_size false start) as (Hn & _ & Hd).
  split; [exact Hn | exact (Hd eq_refl)].
Defined.

(** C7 as stated fails: one [get_query] builds a schema-bearing object,
    two build two, and one [query_db] builds two as well. *)
Lemma schema_state_rebuilt_by_each_call :
  constructions
    (calls_during (get_query agent "how many orders" false false) start) = 1
  /\ constructions
       (calls_during
          (bind (get_query agent "how many orders" false false)
                (fun _ => get_query agent "how many orders" false false))
          start) = 2
  /\ constructions
       (calls_during (query_db_default agent "how many orders") start) = 2.
Proof. repeat split; reflexivity. Qed.

(** * The further properties on the two implementations *)

(** An empty schema folder name: the constructor's error comes out. *)
Lemma get_query_constructor_failure_demo :
  get_query Strict.unschemed_agent "how many orders" true false Strict.start
  = (Raise "SchemaError",
     mkWorld (lib := Strict.lib) WARNING [] []
             [CNlp (lib := Strict.lib) (Path "/data") (Some "") false "" ""]
             0).
Proof.
  apply (get_query_constructor_failure Strict.unschemed_agent
           "how many orders" true false Strict.start "SchemaError" 0).
  reflexivity.
Defined.

(** An empty question: the selector's error comes out. *)
Lemma get_query_selector_failure_demo :
  get_query Strict.agent "" true false Strict.start
  = (Raise "ValueError",
     mkWorld (lib := Strict.lib) WARNING [] []
             [CNlp (lib := Strict.lib) (Path "/data") None false "" "";
              CCsvSelect (lib := Strict.lib) tt ""]
             0).
Proof.
  apply (get_query_selector_failure Strict.agent "" true false Strict.start
           "/data" tt 0 "ValueError" 0); reflexivity.
Defined.

(** Two aggregations at once: the synthesizer's error comes out and no
    line is logged. *)
Lemma get_query_synthesizer_failure_demo :
  fst (get_query Strict.agent "average and total of orders" true false
         Strict.start)
  = Raise "AmbiguousQueryError"
  /\ log_state (snd (get_query Strict.agent "average and total of orders"
                       true false Strict.start))
     = []
  /\ stdout (snd (get_query Strict.agent "average and total of orders"
                    true false Strict.start))
     = []
  /\ ext_state (snd (get_query Strict.agent "average and total of orders"
                       true false Strict.start))
     = 0.
Proof.
  apply (get_query_synthesizer_failure Strict.agent
           "average and total of orders" true false Strict.start
           tt 0 "orders" 0 "AmbiguousQueryError" 0); reflexivity.
Defined.

(** The line a verbose call logs. *)
Lemma get_query_logs_returned_query_demo :
  log_state (snd (get_query agent "how many orders" true false start))
  = ["tableqa.agent: SQL query = %s SELECT * FROM orders"].
Proof.
  exact (proj2 (get_query_logs_returned_query agent "how many orders" false
                  start)
               "SELECT * FROM orders" eq_refl).
Defined.

(** A failed generation stops [query_db]. *)
Lemma query_db_generation_failure_demo :
  query_db Strict.unschemed_agent "how many orders" false (Some "bar")
           default_size false Strict.start
  = (Raise "SchemaError",
     mkWorld (lib := Strict.lib) WARNING [] []
             [CNlp (lib := Strict.lib) (Path "/data") (Some "") false "" ""]
             0).
Proof.
  apply (query_db_generation_failure Strict.unschemed_agent "how many orders"
           false (Some "bar") default_size false Strict.start "SchemaError").
  reflexivity.
Defined.

(** No access key: the query is generated but not executed. *)
Lemma query_db_database_failure_demo :
  fst (query_db Strict.keyless_agent "how many orders" false (Some "bar")
         default_size false Strict.start)
  = Raise "CredentialsError"
  /\ filter is_backend
       (calls_during
          (query_db Strict.keyless_agent "how many orders" false (Some "bar")
                    default_size false) Strict.start)
     = [].
Proof.
  destruct (query_db_database_failure Strict.keyless_agent "how many orders"
              false (Some "bar") default_size false Strict.start
              (Some "SELECT * FROM orders")
              (snd (get_query Strict.keyless_agent "how many orders" false
                      false Strict.start))
              "CredentialsError" 0 eq_refl eq_refl) as [Hrun Hcalls].
  split; [now rewrite Hrun | exact Hcalls].
Defined.

(** The chart call of a run is made from that run's answer. *)
Lemma query_db_chart_only_from_answer_demo :
  exists kind query answer,
    Some "bar" = Some kind
    /\ CChart (lib := lib) "bar" (Some "SELECT * FROM employees")
              [["local"; "SELECT * FROM employees"]] default_size
       = CChart kind query answer default_size
    /\ fst (get_query agent "list employees" false false start) = Ret query
    /\ fst (query_db agent "list employees" false None default_size false
              start)
       = Ret answer.
Proof.
  apply (query_db_chart_only_from_answer agent "list employees" false
           (Some "bar") default_size false start).
  - vm_compute. auto 10.
  - reflexivity.
Defined.

(** The six calls of a successful run with a chart. *)
Lemma query_db_call_order_demo :
  calls_during
    (query_db agent "list employees" false (Some "bar") default_size false)
    start
  = [CNlp (lib := lib) (Path "/data") None false "" "";
     CCsvSelect (lib := lib) tt "list employees";
     CGetSqlQuery (lib := lib) tt "employees" "list employees" false;
     CDatabase (lib := lib) (Path "/data") None false "" "";
     CFetchData (lib := lib) tt "list employees"
       (Some "SELECT * FROM employees") "sqlite" "" "" "db" "localhost"
       None true;
     CChart (lib := lib) "bar" (Some "SELECT * FROM employees")
       [["local"; "SELECT * FROM employees"]] default_size].
Proof.
  apply (query_db_call_order agent "list employees" false "bar" default_size
           false start "/data" tt 0 "employees" 0 "SELECT * FROM employees" 0
           tt 0 [["local"; "SELECT * FROM employees"]] 1); reflexivity.
Defined.

(** The backend call of an agent built with the defaults. *)
Lemma default_agent_is_local_demo :
  filter is_backend
    (calls_during
       (query_db (Agent_default (lib := lib) (Path "/data"))
                 "how many orders" false None default_size false) start)
  = [CFetchData (lib := lib) tt "how many orders"
       (Some "SELECT * FROM orders") "sqlite" "" "" "db" "localhost"
       None true].
Proof.
  destruct (default_agent_is_local (lib := lib) (Path "/data")
              "how many orders" false None default_size false start)
    as (_ & _ & Hcall).
  exact (Hcall (Some "SELECT * FROM orders")
               (snd (get_query agent "how many orders" false false start))
               tt 0 eq_refl eq_refl).
Defined.
